(** * voice_app: the Streamlit voice-to-text script [app.py]

  A shallow embedding of the script: the Python values it handles, the
  exceptions it raises and catches, the Streamlit page it renders and the
  requests it sends to the Deepgram service; then the properties of the
  transcription client and of the page. *)

From Stdlib Require Import ZArith String Ascii List Lia.
From Stdlib Require Strings.Byte Numbers.DecimalString QArith.QArith_base.
From stdpp Require Import base option list strings gmap.

#[local] Set Warnings "-register-all".
Local Open Scope string_scope.
Local Open Scope Z_scope.
Local Open Scope list_scope.

(** ** Python values *)

Module Py.

(** The values that reach the script: JSON data of a service response
    (None, booleans, numbers, strings, lists, objects with string keys),
    byte strings and the in-memory file that [st.audio_input] yields.
    A string is its sequence of characters; a dict is its list of
    entries, and a key is looked up from the left. *)
Inductive PyVal : Type :=
| PNone
| PBool (b : bool)
| PInt (n : Z)
| PFloat (x : QArith_base.Q)
| PStr (s : string)
| PBytes (bs : list Byte.byte)
| PList (items : list PyVal)
| PDict (entries : list (string * PyVal))
| PBytesIO (content : list Byte.byte).

(** [bool(v)], the test of [if v:]. *)
Definition truthy (v : PyVal) : bool :=
  match v with
  | PNone => false
  | PBool b => b
  | PInt n => negb (n =? 0)
  | PFloat x => negb (QArith_base.Qnum x =? 0)
  | PStr s => negb (String.eqb s EmptyString)
  | PBytes bs => negb (Nat.eqb (length bs) 0)
  | PList items => negb (Nat.eqb (length items) 0)
  | PDict entries => negb (Nat.eqb (length entries) 0)
  | PBytesIO _ => true
  end.

(** [type(v).__name__] *)
Definition type_name (v : PyVal) : string :=
  match v with
  | PNone => "NoneType"
  | PBool _ => "bool"
  | PInt _ => "int"
  | PFloat _ => "float"
  | PStr _ => "str"
  | PBytes _ => "bytes"
  | PList _ => "list"
  | PDict _ => "dict"
  | PBytesIO _ => "_io.BytesIO"
  end.

(** The exception classes told apart by the script's handlers:
    [except KeyError] and [except Exception].  The last three derive from
    [BaseException] only. *)
Inductive ExnClass : Type :=
| KeyError
| IndexError
| TypeError
| AttributeError
| FileNotFoundError
| LibraryError (name : string)
| KeyboardInterrupt
| SystemExit
| CancelledError.

(** An exception: its class and [str(e)]. *)
Record Exn : Type := mkExn { exn_class : ExnClass; exn_str : string }.

(** [isinstance(e, Exception)] *)
Definition is_Exception (e : Exn) : bool :=
  match exn_class e with
  | KeyboardInterrupt | SystemExit | CancelledError => false
  | _ => true
  end.

(** [isinstance(e, KeyError)] *)
Definition is_KeyError (e : Exn) : bool :=
  match exn_class e with
  | KeyError => true
  | _ => false
  end.

(** The outcome of evaluating an expression or running a statement:
    a value, a raised exception, or the end of the script run requested
    by [st.stop()]. *)
Inductive Result (A : Type) : Type :=
| Return (a : A)
| Raise (e : Exn)
| Halt.
Arguments Return {A} a.
Arguments Raise {A} e.
Arguments Halt {A}.

(** A subscript [v[k]] of the script has a string or an integer key. *)
Inductive Key : Type :=
| KStr (s : string)
| KInt (i : Z).

(** [repr(k)]; for a string, of one without quotes, backslashes or
    control characters, as are the keys written in the script. *)
Definition repr_key (k : Key) : string :=
  match k with
  | KStr s => "'" +:+ s +:+ "'"
  | KInt i => DecimalString.NilZero.string_of_int (Z.to_int i)
  end.

(** The position in a sequence of length [len] that index [i] denotes:
    negative indices count from the end. *)
Definition seq_index (len : nat) (i : Z) : option nat :=
  if (0 <=? i) && (i <? Z.of_nat len) then Some (Z.to_nat i)
  else if (- Z.of_nat len <=? i) && (i <? 0) then Some (Z.to_nat (Z.of_nat len + i))
  else None.

Definition dict_get (entries : list (string * PyVal)) (k : string) : option PyVal :=
  snd <$> List.find (fun kv => String.eqb (fst kv) k) entries.

Definition byte_val (b : Byte.byte) : Z := Z.of_N (Byte.to_N b).

(** [v[k]] *)
Definition subscript (v : PyVal) (k : Key) : Result PyVal :=
  match v, k with
  | PDict entries, KStr s =>
      match dict_get entries s with
      | Some x => Return x
      | None => Raise (mkExn KeyError (repr_key k))
      end
  | PDict _, KInt _ => Raise (mkExn KeyError (repr_key k))
  | PList items, KInt i =>
      match seq_index (length items) i ≫= (items !!.) with
      | Some x => Return x
      | None => Raise (mkExn IndexError "list index out of range")
      end
  | PList _, KStr _ =>
      Raise (mkExn TypeError "list indices must be integers or slices, not str")
  | PStr s, KInt i =>
      match seq_index (String.length s) i ≫= (fun n => String.get n s) with
      | Some c => Return (PStr (String c EmptyString))
      | None => Raise (mkExn IndexError "string index out of range")
      end
  | PStr _, KStr _ =>
      Raise (mkExn TypeError "string indices must be integers, not 'str'")
  | PBytes bs, KInt i =>
      match seq_index (length bs) i ≫= (bs !!.) with
      | Some b => Return (PInt (byte_val b))
      | None => Raise (mkExn IndexError "index out of range")
      end
  | PBytes _, KStr _ =>
      Raise (mkExn TypeError "byte indices must be integers or slices, not str")
  | _, _ =>
      Raise (mkExn TypeError ("'" +:+ type_name v +:+ "' object is not subscriptable"))
  end.

(** [v.getvalue()]: only the in-memory file has the method. *)
Definition getvalue (v : PyVal) : Result PyVal :=
  match v with
  | PBytesIO content => Return (PBytes content)
  | _ => Raise (mkExn AttributeError
                  ("'" +:+ type_name v +:+ "' object has no attribute 'getvalue'"))
  end.

End Py.
Export Py.

(** ** The page, the service and the script's effects *)

Module St.

(** What a Streamlit call puts on the page; each element records the
    arguments the script passes. *)
Inductive Element : Type :=
| PageConfig (page_title page_icon : string)
| TitleText (body : string)
| WriteText (body : string)
| Markdown (body : string)
| AudioInput (label help : string)
| Subheader (body : string)
| AudioPlayer (data : PyVal) (format : string)
| Button (label : string) (use_container_width : bool)
| Spinner (text : string)
| InfoBanner (body : PyVal)
| SuccessBanner (body : PyVal)
| WarningBanner (body : PyVal)
| ErrorBanner (body : PyVal).

(** One call of [dg_client.transcription.prerecorded]: the credential of
    the client and the two arguments. *)
Record Request : Type :=
  mkRequest { req_key : PyVal; req_source : PyVal; req_options : PyVal }.

(** The service answers a call with a parsed JSON response or the call
    raises. *)
Inductive Outcome : Type :=
| Responds (response : PyVal)
| Fails (e : Exn).

(** The service is outside the repository: its answer to a request may
    depend on the request and on the calls made before it. *)
Definition Service : Type := list Request -> Request -> Outcome.

(** The state threaded through a run of the script: the page rendered so
    far and the calls sent to the service so far, both oldest first. *)
Record World : Type := mkWorld { page : list Element; sent : list Request }.

(** [st.secrets]: the secrets file read into a store, or no file at all,
    in which case every lookup raises Streamlit's error for it, derived
    from [FileNotFoundError], with its message. *)
Inductive Secrets : Type :=
| NoSecretsFile (message : string)
| SecretsFile (store : gmap string PyVal).

(** The value a secrets file gives to a key. *)
#[export] Instance Secrets_lookup : Lookup string PyVal Secrets := fun k s =>
  match s with
  | NoSecretsFile _ => None
  | SecretsFile store => store !! k
  end.

(** What the browser session supplies to a run: the secrets, the
    recording held by the audio widget (if any) and whether the run was
    triggered by a click on the button. *)
Record Interaction : Type :=
  mkInteraction {
    secrets : Secrets;
    recording : option (list Byte.byte);
    clicked : bool
  }.

(** State and exceptions. *)
Definition M (A : Type) : Type := World -> Result A * World.

#[export] Instance M_ret : MRet M := fun A a w => (Return a, w).

#[export] Instance M_bind : MBind M := fun A B f m w =>
  match m w with
  | (Return a, w') => f a w'
  | (Raise e, w') => (Raise e, w')
  | (Halt, w') => (Halt, w')
  end.

Definition lift {A} (r : Result A) : M A := fun w => (r, w).

(** [try: body / except C as e: handler e], where [catches] tells the
    instances of [C]. *)
Definition try_except {A} (body : M A) (catches : Exn -> bool) (handler : Exn -> M A) : M A :=
  fun w =>
    match body w with
    | (Raise e, w') => if catches e then handler e w' else (Raise e, w')
    | r => r
    end.

Definition emit (x : Element) : M unit :=
  fun w => (Return tt, {| page := page w ++ [x]; sent := sent w |}).

Definition st_set_page_config (page_title page_icon : string) : M unit :=
  emit (PageConfig page_title page_icon).
Definition st_title (body : string) : M unit := emit (TitleText body).
Definition st_write (body : string) : M unit := emit (WriteText body).
Definition st_markdown (body : string) : M unit := emit (Markdown body).
Definition st_subheader (body : string) : M unit := emit (Subheader body).
Definition st_audio (data : PyVal) (format : string) : M unit :=
  emit (AudioPlayer data format).
Definition st_info (body : PyVal) : M unit := emit (InfoBanner body).
Definition st_success (body : PyVal) : M unit := emit (SuccessBanner body).
Definition st_warning (body : PyVal) : M unit := emit (WarningBanner body).
Definition st_error (body : PyVal) : M unit := emit (ErrorBanner body).

(** [st.stop()] ends the run. *)
Definition st_stop {A} : M A := fun w => (Halt, w).

(** [with st.spinner(text): body] *)
Definition st_spinner {A} (text : string) (body : M A) : M A :=
  emit (Spinner text);; body.

(** [st.audio_input(label, help=...)]: [None] until a recording exists,
    then the in-memory file holding it. *)
Definition st_audio_input (i : Interaction) (label help : string) : M PyVal :=
  emit (AudioInput label help);;
  mret (match recording i with
        | None => PNone
        | Some bs => PBytesIO bs
        end).

(** [st.button(label, use_container_width=...)] *)
Definition st_button (i : Interaction) (label : string) (use_container_width : bool) : M bool :=
  emit (Button label use_container_width);;
  mret (clicked i).

(** [st.secrets[k]]: without a secrets file the lookup raises the error
    for the missing file; with one, a missing key raises a [KeyError],
    whose text the script does not use. *)
Definition st_secrets_getitem (i : Interaction) (k : string) : M PyVal :=
  lift (match secrets i with
        | NoSecretsFile message => Raise (mkExn FileNotFoundError message)
        | SecretsFile store =>
            match store !! k with
            | Some v => Return v
            | None => Raise (mkExn KeyError (repr_key (KStr k)))
            end
        end).

(** [x is None] *)
Definition is_None (v : PyVal) : bool :=
  match v with
  | PNone => true
  | _ => false
  end.

End St.
Export St.

(** ** The Deepgram client *)

Module Dg.

Record Client : Type := mkClient { api_key : PyVal }.

(** The class [Deepgram] of the SDK: called with the credential it builds
    a client or raises for a credential it rejects.  Which credentials it
    rejects is the SDK's matter. *)
Definition Constructor : Type := PyVal -> Exn + Client.

(** [Deepgram(key)] *)
Definition new_client (Deepgram : Constructor) (key : PyVal) : M Client :=
  lift (match Deepgram key with
        | inr client => Return client
        | inl e => Raise e
        end).

(** [await client.transcription.prerecorded(source, options)]: the call
    is recorded, and the service's answer is returned or raised. *)
Definition prerecorded (service : Service) (client : Client) (source options : PyVal) : M PyVal :=
  fun w =>
    let rq := mkRequest (api_key client) source options in
    (match service (sent w) rq with
     | Responds response => Return response
     | Fails e => Raise e
     end,
     {| page := page w; sent := sent w ++ [rq] |}).

(** [asyncio.run(coro)] runs the one coroutine to its end. *)
Definition asyncio_run {A} (coro : M A) : M A := coro.

End Dg.
Export Dg.

(** ** app.py *)

Section App.

Variable Deepgram : Constructor.
Variable deepgram : Service.

Definition transcription_options : PyVal :=
  PDict [("smart_format", PBool true); ("model", PStr "nova-2"); ("language", PStr "en-US")].

Definition transcribe_microphone_audio (dg_client : Client) (audio_data_bytesio : PyVal) : M PyVal :=
  try_except
    (buffer ← lift (getvalue audio_data_bytesio);
     let source := PDict [("buffer", buffer); ("mimetype", PStr "audio/webm")] in
     st_info (PStr "Sending audio to Deepgram for transcription... This may take a moment.");;
     response ← prerecorded deepgram dg_client source transcription_options;
     results ← lift (subscript response (KStr "results"));
     channels ← lift (subscript results (KStr "channels"));
     channel ← lift (subscript channels (KInt 0));
     alternatives ← lift (subscript channel (KStr "alternatives"));
     alternative ← lift (subscript alternatives (KInt 0));
     transcript ← lift (subscript alternative (KStr "transcript"));
     mret transcript)
    is_Exception
    (fun e =>
       st_error (PStr ("Error during transcription: " +:+ exn_str e));;
       mret PNone).

Definition main (dg_client : Client) (i : Interaction) : M unit :=
  st_set_page_config "Microphone Voice-to-Text Transcriber" "🎤";;
  st_title "🎤 Voice-to-Text Transcriber with Microphone Input";;
  st_write "Record your voice using the microphone below and get an instant transcription.";;
  st_markdown "---";;
  audio_bytes ← st_audio_input i
    "Click 'Record' to start, then 'Stop' when you're done:"
    "Make sure your microphone is enabled and working.";
  (if negb (is_None audio_bytes) then
     st_subheader "Recorded Audio Playback:";;
     st_audio audio_bytes "audio/webm";;
     pressed ← st_button i "Transcribe Recorded Audio" true;
     if pressed : bool then
       st_spinner "Transcribing your audio... Please wait."
         (transcript ← asyncio_run (transcribe_microphone_audio dg_client audio_bytes);
          if truthy transcript then
            st_success (PStr "Transcription Complete!");;
            st_subheader "Your Transcript:";;
            st_info transcript
          else
            st_warning (PStr "Transcription failed or returned no text. Please try recording again."))
     else mret tt
   else
     st_info (PStr "Ready to record! Record your voice above to get started."));;
  st_markdown "---";;
  st_markdown ("Built with ❤️ using [Streamlit](https://streamlit.io/) and "
               +:+ "[Deepgram's Speech-to-Text API](https://deepgram.com/).").

(** The module body: the credential, the client (built outside any
    [try]), then [main()]. *)
Definition app (i : Interaction) : M unit :=
  DEEPGRAM_API_KEY ←
    try_except (st_secrets_getitem i "DEEPGRAM_API_KEY") is_KeyError
      (fun _ =>
         st_error (PStr ("Deepgram API Key not found. Please set it in "
                         +:+ "`.streamlit/secrets.toml` (for local) or via Streamlit Cloud secrets."));;
         st_stop);
  dg_client ← new_client Deepgram DEEPGRAM_API_KEY;
  main dg_client i.

End App.

(** ** Reading the transcript out of a response *)

Module Response.

#[export] Instance Result_bind : MBind Result := fun A B f r =>
  match r with
  | Return a => f a
  | Raise e => Raise e
  | Halt => Halt
  end.

(** The chain of subscripts of [transcribe_microphone_audio]:
    [response["results"]["channels"][0]["alternatives"][0]["transcript"]]. *)
Definition read_transcript (response : PyVal) : Result PyVal :=
  results ← subscript response (KStr "results");
  channels ← subscript results (KStr "channels");
  channel ← subscript channels (KInt 0);
  alternatives ← subscript channel (KStr "alternatives");
  alternative ← subscript alternatives (KInt 0);
  subscript alternative (KStr "transcript").

(** The specification's path results -> channels[0] -> alternatives[0]
    -> transcript, read on the JSON document: a member of an object, an
    element of an array. *)
Definition member (k : string) (v : PyVal) : option PyVal :=
  match v with
  | PDict entries => dict_get entries k
  | _ => None
  end.

Definition element (n : nat) (v : PyVal) : option PyVal :=
  match v with
  | PList items => items !! n
  | _ => None
  end.

Definition transcript_at_path (response : PyVal) : option PyVal :=
  results ← member "results" response;
  channels ← member "channels" results;
  channel ← element 0 channels;
  alternatives ← member "alternatives" channel;
  alternative ← element 0 alternatives;
  member "transcript" alternative.

(** The transcription result of the data model: a string or the absence
    marker. *)
Definition is_str_or_None (v : PyVal) : bool :=
  match v with
  | PNone | PStr _ => true
  | _ => false
  end.

End Response.
Export Response.

(** ** The parts of a page and of a run that the properties speak of *)

Module View.

(** The parts of the page the properties speak of. *)
Definition sending_notice : Element :=
  InfoBanner (PStr "Sending audio to Deepgram for transcription... This may take a moment.").

Definition error_notice (text : string) : Element :=
  ErrorBanner (PStr ("Error during transcription: " +:+ text)).

Definition try_again_warning : Element :=
  WarningBanner (PStr "Transcription failed or returned no text. Please try recording again.").

Definition transcript_view (transcript : PyVal) : list Element :=
  [SuccessBanner (PStr "Transcription Complete!");
   Subheader "Your Transcript:";
   InfoBanner transcript].

Definition missing_key_notice : Element :=
  ErrorBanner (PStr ("Deepgram API Key not found. Please set it in "
                     +:+ "`.streamlit/secrets.toml` (for local) or via Streamlit Cloud secrets.")).

(** The request the client builds for the bytes of a recording. *)
Definition request_of (dg_client : Client) (bs : list Byte.byte) : Request :=
  mkRequest (api_key dg_client)
    (PDict [("buffer", PBytes bs); ("mimetype", PStr "audio/webm")])
    (PDict [("smart_format", PBool true); ("model", PStr "nova-2"); ("language", PStr "en-US")]).

Definition rendered (w : World) (xs : list Element) : World :=
  mkWorld (page w ++ xs) (sent w).

Definition called (w : World) (rq : Request) : World :=
  mkWorld (page w) (sent w ++ [rq]).

(** What the client returns and shows for an answer of the service. *)
Definition client_result (o : Outcome) : Result PyVal * list Element :=
  match o with
  | Fails e =>
      if is_Exception e then (Return PNone, [sending_notice; error_notice (exn_str e)])
      else (Raise e, [sending_notice])
  | Responds response =>
      match read_transcript response with
      | Return t => (Return t, [sending_notice])
      | Raise e => (Return PNone, [sending_notice; error_notice (exn_str e)])
      | Halt => (Halt, [sending_notice])
      end
  end.

Definition page_head : list Element :=
  [PageConfig "Microphone Voice-to-Text Transcriber" "🎤";
   TitleText "🎤 Voice-to-Text Transcriber with Microphone Input";
   WriteText "Record your voice using the microphone below and get an instant transcription.";
   Markdown "---";
   AudioInput "Click 'Record' to start, then 'Stop' when you're done:"
     "Make sure your microphone is enabled and working."].

Definition playback (bs : list Byte.byte) : list Element :=
  [Subheader "Recorded Audio Playback:";
   AudioPlayer (PBytesIO bs) "audio/webm";
   Button "Transcribe Recorded Audio" true].

Definition spinner : Element := Spinner "Transcribing your audio... Please wait.".

Definition ready_notice : Element :=
  InfoBanner (PStr "Ready to record! Record your voice above to get started.").

Definition page_foot : list Element :=
  [Markdown "---";
   Markdown ("Built with ❤️ using [Streamlit](https://streamlit.io/) and "
             +:+ "[Deepgram's Speech-to-Text API](https://deepgram.com/).")].

(** What [main] shows for the value the client returned. *)
Definition result_view (transcript : PyVal) : list Element :=
  if truthy transcript then transcript_view transcript else [try_again_warning].

(** A page render: Streamlit runs the script from the top on an empty
    page; the calls already made to the service are behind it. *)
Definition render (Deepgram : Constructor) (deepgram : Service) (i : Interaction)
    (log : list Request)
  : Result unit * World :=
  app Deepgram deepgram i (mkWorld [] log).

(** The calls made once the same interaction has been rendered [n] times
    in a row. *)
Fixpoint presses (Deepgram : Constructor) (deepgram : Service) (i : Interaction)
    (n : nat) (log : list Request)
  : list Request :=
  match n with
  | O => log
  | S n' => presses Deepgram deepgram i n' (sent (snd (render Deepgram deepgram i log)))
  end.

Definition is_button (x : Element) : bool :=
  match x with
  | Button _ _ => true
  | _ => false
  end.

(** The banners that report a failure: [st.error] and [st.warning]. *)
Definition is_failure_banner (x : Element) : bool :=
  match x with
  | ErrorBanner _ | WarningBanner _ => true
  | _ => false
  end.

Definition failure_banners (p : list Element) : list Element :=
  List.filter is_failure_banner p.

(** A failed service call: the call raises an exception (one derived from
    [Exception], as the errors of the transport and of the service are),
    or the response lacks the path to the transcript. *)
Definition failed (o : Outcome) : Prop :=
  match o with
  | Fails e => is_Exception e = true
  | Responds response => transcript_at_path response = None
  end.

End View.
Export View.

(** ** Sample sessions *)

Module Demo.

Definition key : PyVal := PStr "dg-secret".

Definition store : gmap string PyVal := {["DEEPGRAM_API_KEY" := key]}.

Definition clip : list Byte.byte := [Byte.x1a; Byte.x45; Byte.xdf; Byte.xa3].

Definition click : Interaction := mkInteraction (SecretsFile store) (Some clip) true.

Definition click_on_empty : Interaction := mkInteraction (SecretsFile store) (Some []) true.

Definition idle : Interaction := mkInteraction (SecretsFile store) None false.

(** A constructor that builds a client for a string and rejects any other
    credential. *)
Definition sdk : Constructor := fun key =>
  match key with
  | PStr _ => inr (mkClient key)
  | _ => inl (mkExn (LibraryError "DeepgramSetupError") "invalid options")
  end.

Definition client : Client := mkClient key.

(** A secrets file that gives the credential as a number. *)
Definition click_with_number_key : Interaction :=
  mkInteraction (SecretsFile {["DEEPGRAM_API_KEY" := PInt 12345]}) (Some clip) true.

(** A run without any secrets file. *)
Definition click_without_secrets : Interaction :=
  mkInteraction (NoSecretsFile "No secrets found.") (Some clip) true.

(** A response of the service's shape with [t] as the transcript. *)
Definition response_with (t : PyVal) : PyVal :=
  PDict [("metadata", PDict [("channels", PInt 1)]);
         ("results",
          PDict [("channels",
                  PList [PDict [("alternatives",
                                 PList [PDict [("transcript", t);
                                               ("confidence", PFloat (QArith_base.Qmake 98 100))]])]])])].

Definition answering (o : Outcome) : Service := fun _ _ => o.

Definition unauthorized : Exn :=
  mkExn (LibraryError "DeepgramApiError") "401 Unauthorized".

(** A service whose answer depends on how often it has been called. *)
Definition counting : Service := fun log _ =>
  Responds (response_with (PStr (if Nat.eqb (length log) 0 then "first" else "again"))).

End Demo.

(** ** A browser session *)

Module Session.

(** Streamlit runs the script again at every interaction, whatever the
    outcome of the run before; the calls made to the service add up. *)
Fixpoint session (Deepgram : Constructor) (deepgram : Service)
    (runs : list Interaction) (log : list Request)
  : list Request :=
  match runs with
  | [] => log
  | i :: rest =>
      session Deepgram deepgram rest (sent (snd (render Deepgram deepgram i log)))
  end.

(** The client a run of the script gets to work with: the one the SDK
    builds for the credential of the secrets file, if there is one. *)
Definition built_client (Deepgram : Constructor) (i : Interaction) : option Client :=
  match secrets i !! "DEEPGRAM_API_KEY" with
  | Some key =>
      match Deepgram key with
      | inr client => Some client
      | inl _ => None
      end
  | None => None
  end.

(** The interactions in which a client is built, a recording is held and
    the button was clicked. *)
Definition triggers (Deepgram : Constructor) (i : Interaction) : bool :=
  match built_client Deepgram i, recording i with
  | Some _, Some _ => clicked i
  | _, _ => false
  end.

End Session.
Export Session.

(** ** Facts about subscripts *)

Lemma seq_index_0 (len : nat) :
  seq_index len 0 = if decide (len = 0%nat) then None else Some 0%nat.
Proof.
  unfold seq_index. case_decide as Hlen.
  - subst len. reflexivity.
  - replace (0 <? Z.of_nat len) with true by (symmetry; apply Z.ltb_lt; lia).
    reflexivity.
Qed.

Lemma subscript_no_Halt (v : PyVal) (k : Key) : subscript v k <> Halt.
Proof.
  destruct v, k; simpl; try discriminate;
    repeat match goal with
           | |- context [match ?o with Some _ => _ | None => _ end] => destruct o
           end; discriminate.
Qed.

(** What a subscript raises is a [KeyError], an [IndexError] or a
    [TypeError], all instances of [Exception]. *)
Lemma subscript_raises_Exception (v : PyVal) (k : Key) (e : Exn) :
  subscript v k = Raise e -> is_Exception e = true.
Proof.
  destruct v, k; simpl;
    repeat match goal with
           | |- context [match ?o with Some _ => _ | None => _ end] => destruct o
           end;
    intros [= <-]; reflexivity.
Qed.

Lemma subscript_str_key (v : PyVal) (k : string) (x : PyVal) :
  subscript v (KStr k) = Return x <-> member k v = Some x.
Proof.
  destruct v; simpl; try (split; discriminate).
  destruct (dict_get entries k); split; congruence.
Qed.

(** Element 0 of a string is a string and of a byte string an integer:
    neither has members. *)
Lemma subscript_0_then_key (v : PyVal) (k : string) (x y : PyVal) :
  subscript v (KInt 0) = Return x ->
  subscript x (KStr k) = Return y ->
  element 0 v = Some x.
Proof.
  destruct v; simpl; try discriminate.
  - rewrite seq_index_0. case_decide; simpl; [discriminate|].
    destruct (String.get 0 s); [|discriminate].
    intros [= <-]. discriminate.
  - rewrite seq_index_0. case_decide; simpl; [discriminate|].
    destruct (bs !! 0%nat); [|discriminate].
    intros [= <-]. discriminate.
  - rewrite seq_index_0. case_decide; simpl; [discriminate|].
    destruct (items !! 0%nat); [|discriminate].
    intros [= <-] _. reflexivity.
Qed.

Lemma element_0_subscript (v x : PyVal) :
  element 0 v = Some x -> subscript v (KInt 0) = Return x.
Proof.
  destruct v; simpl; try discriminate.
  rewrite seq_index_0. destruct items as [|a items]; simpl; [discriminate|].
  intros [= <-]. reflexivity.
Qed.

Lemma read_transcript_no_Halt (response : PyVal) : read_transcript response <> Halt.
Proof.
  unfold read_transcript, mbind, Result_bind.
  repeat match goal with
         | |- context [match subscript ?v ?k with _ => _ end] =>
             let H := fresh in
             destruct (subscript v k) eqn:H;
             [ | discriminate | exfalso; exact (subscript_no_Halt _ _ H) ]
         end.
  apply subscript_no_Halt.
Qed.

Lemma read_transcript_raises_Exception (response : PyVal) (e : Exn) :
  read_transcript response = Raise e -> is_Exception e = true.
Proof.
  unfold read_transcript, mbind, Result_bind.
  repeat match goal with
         | |- context [match subscript ?v ?k with _ => _ end] =>
             let H := fresh in
             destruct (subscript v k) eqn:H;
             [ | intros [= <-]; exact (subscript_raises_Exception _ _ _ H)
               | discriminate ]
         end.
  apply subscript_raises_Exception.
Qed.

(** The subscripts of the code return a value exactly when the path of
    the specification leads to it. *)
Lemma read_transcript_path (response t : PyVal) :
  read_transcript response = Return t <-> transcript_at_path response = Some t.
Proof.
  unfold read_transcript, transcript_at_path, mbind, Result_bind, option_bind.
  split.
  - destruct (subscript response (KStr "results")) as [results| |] eqn:H1; try discriminate.
    destruct (subscript results (KStr "channels")) as [channels| |] eqn:H2; try discriminate.
    destruct (subscript channels (KInt 0)) as [channel| |] eqn:H3; try discriminate.
    destruct (subscript channel (KStr "alternatives")) as [alts| |] eqn:H4; try discriminate.
    destruct (subscript alts (KInt 0)) as [alt| |] eqn:H5; try discriminate.
    intros H6.
    apply subscript_str_key in H1 as ->.
    apply subscript_str_key in H2 as ->.
    rewrite (subscript_0_then_key _ _ _ _ H3 H4).
    apply subscript_str_key in H4 as ->.
    rewrite (subscript_0_then_key _ _ _ _ H5 H6).
    apply subscript_str_key in H6 as ->. reflexivity.
  - destruct (member "results" response) as [results|] eqn:H1; [|discriminate].
    destruct (member "channels" results) as [channels|] eqn:H2; [|discriminate].
    destruct (element 0 channels) as [channel|] eqn:H3; [|discriminate].
    destruct (member "alternatives" channel) as [alts|] eqn:H4; [|discriminate].
    destruct (element 0 alts) as [alt|] eqn:H5; [|discriminate].
    intros H6.
    apply subscript_str_key in H1 as ->.
    apply subscript_str_key in H2 as ->.
    apply element_0_subscript in H3 as ->.
    apply subscript_str_key in H4 as ->.
    apply element_0_subscript in H5 as ->.
    apply subscript_str_key in H6 as ->. reflexivity.
Qed.

(** A response without the path makes the subscripts raise. *)
Lemma read_transcript_malformed (response : PyVal) :
  transcript_at_path response = None ->
  exists e, read_transcript response = Raise e /\ is_Exception e = true.
Proof.
  intros Hpath.
  destruct (read_transcript response) as [t|e|] eqn:Hread.
  - apply read_transcript_path in Hread. congruence.
  - exists e. split; [reflexivity|]. exact (read_transcript_raises_Exception _ _ Hread).
  - exfalso. exact (read_transcript_no_Halt _ Hread).
Qed.

(** ** Runs of the client and of the page *)

#[global] Arguments is_Exception : simpl never.

Section Runs.

Variable deepgram : Service.

Lemma transcribe_run (dg_client : Client) (bs : list Byte.byte) (w : World) :
  let rq := request_of dg_client bs in
  let o := client_result (deepgram (sent w) rq) in
  transcribe_microphone_audio deepgram dg_client (PBytesIO bs) w
  = (fst o, called (rendered w (snd o)) rq).
Proof.
  cbv zeta.
  unfold transcribe_microphone_audio, try_except, prerecorded, client_result,
    read_transcript, rendered, called, st_info, st_error, emit, lift.
  unfold mbind, M_bind, Result_bind, mret, M_ret, request_of, transcription_options.
  simpl.
  destruct (deepgram (sent w) _) as [response|e]; simpl.
  - repeat match goal with
           | |- context [subscript ?v ?k] =>
               let H := fresh "Hsub" in
               destruct (subscript v k) eqn:H; simpl;
               [ | rewrite (subscript_raises_Exception _ _ _ H); simpl;
                   rewrite <- app_assoc; reflexivity
                 | exfalso; exact (subscript_no_Halt _ _ H) ]
           end.
    reflexivity.
  - destruct (is_Exception e); simpl; [|reflexivity].
    rewrite <- app_assoc. reflexivity.
Qed.

(** Without a [getvalue] method the argument makes the first statement
    raise an [AttributeError], which the handler reports. *)
Lemma transcribe_run_other (dg_client : Client) (audio : PyVal) (w : World) :
  (forall bs, audio <> PBytesIO bs) ->
  exists text,
    transcribe_microphone_audio deepgram dg_client audio w
    = (Return PNone, rendered w [error_notice text]).
Proof.
  intros Hnot.
  exists ("'" +:+ type_name audio +:+ "' object has no attribute 'getvalue'").
  destruct audio; try reflexivity.
  exfalso. exact (Hnot content eq_refl).
Qed.

Ltac run_main :=
  unfold main, st_set_page_config, st_title, st_write, st_markdown, st_audio_input,
    st_subheader, st_audio, st_button, st_spinner, st_success, st_info, st_warning,
    asyncio_run, emit, rendered, called;
  unfold mbind, M_bind, mret, M_ret; simpl.

Lemma main_idle (dg_client : Client) (i : Interaction) (w : World) :
  recording i = None ->
  main deepgram dg_client i w
  = (Return tt, rendered w (page_head ++ [ready_notice] ++ page_foot)).
Proof.
  intros Hrec. run_main. rewrite Hrec. simpl.
  rewrite <- !app_assoc. reflexivity.
Qed.

Lemma main_not_clicked (dg_client : Client) (i : Interaction) (bs : list Byte.byte) (w : World) :
  recording i = Some bs ->
  clicked i = false ->
  main deepgram dg_client i w
  = (Return tt, rendered w (page_head ++ playback bs ++ page_foot)).
Proof.
  intros Hrec Hclick. run_main. rewrite Hrec, Hclick. simpl.
  rewrite <- !app_assoc. reflexivity.
Qed.

Lemma main_clicked (dg_client : Client) (i : Interaction) (bs : list Byte.byte) (w : World) :
  recording i = Some bs ->
  clicked i = true ->
  main deepgram dg_client i w
  = match transcribe_microphone_audio deepgram dg_client (PBytesIO bs)
            (rendered w (page_head ++ playback bs ++ [spinner])) with
    | (Return t, w1) => (Return tt, rendered w1 (result_view t ++ page_foot))
    | (Raise e, w1) => (Raise e, w1)
    | (Halt, w1) => (Halt, w1)
    end.
Proof.
  intros Hrec Hclick. run_main. rewrite Hrec, Hclick.
  unfold page_head, playback, spinner. simpl.
  rewrite <- !app_assoc. simpl.
  match goal with
  | |- context [transcribe_microphone_audio ?s ?c ?a ?w0] =>
      destruct (transcribe_microphone_audio s c a w0) as [[t|e|] w1]
  end; try reflexivity.
  unfold result_view, transcript_view. destruct (truthy t); simpl.
  - rewrite <- !app_assoc. reflexivity.
  - rewrite <- !app_assoc. reflexivity.
Qed.

(** A click, in terms of the service's answer to the one call. *)
Lemma main_clicked_run (dg_client : Client) (i : Interaction) (bs : list Byte.byte) (w : World) :
  recording i = Some bs ->
  clicked i = true ->
  let rq := request_of dg_client bs in
  let o := client_result (deepgram (sent w) rq) in
  main deepgram dg_client i w
  = match fst o with
    | Return t =>
        (Return tt,
         called (rendered w (page_head ++ playback bs ++ [spinner] ++ snd o
                             ++ result_view t ++ page_foot)) rq)
    | Raise e =>
        (Raise e, called (rendered w (page_head ++ playback bs ++ [spinner] ++ snd o)) rq)
    | Halt =>
        (Halt, called (rendered w (page_head ++ playback bs ++ [spinner] ++ snd o)) rq)
    end.
Proof.
  intros Hrec Hclick rq o.
  rewrite (main_clicked _ _ _ _ Hrec Hclick), transcribe_run.
  fold rq. change (sent (rendered w _)) with (sent w). fold o.
  destruct (fst o); unfold rendered, called; simpl; rewrite <- ?app_assoc; reflexivity.
Qed.

Lemma app_run (Deepgram : Constructor) (i : Interaction) (w : World) :
  app Deepgram deepgram i w
  = match secrets i with
    | NoSecretsFile message => (Raise (mkExn FileNotFoundError message), w)
    | SecretsFile store =>
        match store !! "DEEPGRAM_API_KEY" with
        | None => (Halt, rendered w [missing_key_notice])
        | Some key =>
            match Deepgram key with
            | inl e => (Raise e, w)
            | inr dg_client => main deepgram dg_client i w
            end
        end
    end.
Proof.
  unfold app, new_client, try_except, st_secrets_getitem, lift, st_error, st_stop,
    emit, rendered.
  unfold mbind, M_bind, mret, M_ret.
  destruct (secrets i) as [message|store]; [reflexivity|].
  destruct (store !! "DEEPGRAM_API_KEY") as [key|]; [|reflexivity].
  destruct (Deepgram key); reflexivity.
Qed.

(** With the credential in the secrets file and a client built for it,
    the script is [main] with that client. *)
Lemma app_built
    (Deepgram : Constructor) (i : Interaction) (key : PyVal) (dg_client : Client)
    (w : World) :
  secrets i !! "DEEPGRAM_API_KEY" = Some key ->
  Deepgram key = inr dg_client ->
  app Deepgram deepgram i w = main deepgram dg_client i w.
Proof.
  intros Hkey Hbuilt. rewrite app_run.
  destruct (secrets i) as [message|store]; [discriminate Hkey|].
  unfold lookup, Secrets_lookup in Hkey. rewrite Hkey, Hbuilt. reflexivity.
Qed.

(** [main] shows the transcript for exactly the values Python takes as
    true: among strings the non-empty ones, never [None]. *)
Lemma result_view_truthy (t : PyVal) :
  result_view t = transcript_view t <-> truthy t = true.
Proof.
  unfold result_view. destruct (truthy t); split; try reflexivity; discriminate.
Qed.

End Runs.

(** A render in which a client is built is [main] on an empty page. *)
Lemma render_built
    (Deepgram : Constructor) (deepgram : Service) (i : Interaction) (key : PyVal)
    (dg_client : Client) (log : list Request) :
  secrets i !! "DEEPGRAM_API_KEY" = Some key ->
  Deepgram key = inr dg_client ->
  render Deepgram deepgram i log = main deepgram dg_client i (mkWorld [] log).
Proof.
  intros Hkey Hbuilt. unfold render. exact (app_built _ _ _ _ _ _ Hkey Hbuilt).
Qed.

(** A render in which no client is built leaves the page without any part
    of the interface and sends nothing. *)
Lemma render_not_built
    (Deepgram : Constructor) (deepgram : Service) (i : Interaction) (log : list Request) :
  built_client Deepgram i = None ->
  sent (snd (render Deepgram deepgram i log)) = log
  /\ (page (snd (render Deepgram deepgram i log)) = []
      \/ page (snd (render Deepgram deepgram i log)) = [missing_key_notice])
  /\ fst (render Deepgram deepgram i log) <> Return tt.
Proof.
  unfold built_client, render. rewrite app_run.
  destruct (secrets i) as [message|store]; simpl.
  - intros _. split; [reflexivity|]. split; [left; reflexivity | discriminate].
  - change (SecretsFile store !! "DEEPGRAM_API_KEY") with (store !! "DEEPGRAM_API_KEY").
    destruct (store !! "DEEPGRAM_API_KEY") as [key|]; simpl.
    + destruct (Deepgram key) as [e|dg_client]; [|discriminate].
      intros _. split; [reflexivity|]. split; [left; reflexivity | discriminate].
    + intros _. split; [reflexivity|]. split; [right; reflexivity | discriminate].
Qed.

Lemma built_client_Some
    (Deepgram : Constructor) (i : Interaction) (dg_client : Client) :
  built_client Deepgram i = Some dg_client
  <-> exists key,
        secrets i !! "DEEPGRAM_API_KEY" = Some key /\ Deepgram key = inr dg_client.
Proof.
  unfold built_client. split.
  - destruct (secrets i !! "DEEPGRAM_API_KEY") as [key|]; [|discriminate].
    destruct (Deepgram key) as [e|c] eqn:Hbuilt; [discriminate|].
    intros [= <-]. exists key. split; [reflexivity | exact Hbuilt].
  - intros (key & -> & ->). reflexivity.
Qed.

Lemma render_sent
    (Deepgram : Constructor) (deepgram : Service) (i : Interaction) (log : list Request) :
  sent (snd (render Deepgram deepgram i log))
  = match built_client Deepgram i, recording i with
    | Some dg_client, Some bs =>
        if clicked i then log ++ [request_of dg_client bs] else log
    | _, _ => log
    end.
Proof.
  destruct (built_client Deepgram i) as [dg_client|] eqn:Hclient.
  - apply built_client_Some in Hclient as (key & Hkey & Hbuilt).
    rewrite (render_built _ _ _ _ _ _ Hkey Hbuilt).
    destruct (recording i) as [bs|] eqn:Hrec; [destruct (clicked i) eqn:Hclick|].
    + rewrite (main_clicked_run _ _ _ _ _ Hrec Hclick). cbv zeta.
      destruct (fst (client_result _)); reflexivity.
    + rewrite (main_not_clicked _ _ _ _ _ Hrec Hclick). reflexivity.
    + rewrite (main_idle _ _ _ _ Hrec). reflexivity.
  - exact (proj1 (render_not_built _ deepgram _ log Hclient)).
Qed.

(** ** The transcription client *)

(** C1. When the service answers the call and its response holds a string
    at results -> channels[0] -> alternatives[0] -> transcript, the client
    returns exactly that string; the one request it sent asks for smart
    formatting through the option [smart_format]. *)
Theorem transcribe_returns_transcript
    (deepgram : Service) (dg_client : Client) (bs : list Byte.byte) (w : World)
    (response : PyVal) (s : string) :
  deepgram (sent w) (request_of dg_client bs) = Responds response ->
  transcript_at_path response = Some (PStr s) ->
  fst (transcribe_microphone_audio deepgram dg_client (PBytesIO bs) w) = Return (PStr s)
  /\ sent (snd (transcribe_microphone_audio deepgram dg_client (PBytesIO bs) w))
     = sent w ++ [request_of dg_client bs]
  /\ member "smart_format" (req_options (request_of dg_client bs)) = Some (PBool true).
Proof.
  intros Hanswer Hpath.
  apply read_transcript_path in Hpath.
  rewrite transcribe_run. cbv zeta.
  rewrite Hanswer. unfold client_result. rewrite Hpath.
  repeat split.
Qed.

Lemma transcribe_returns_transcript_witness :
  let w := mkWorld [] [] in
  let response := Demo.response_with (PStr "Hello, world.") in
  Demo.answering (Responds response) (sent w) (request_of Demo.client Demo.clip)
  = Responds response
  /\ transcript_at_path response = Some (PStr "Hello, world.")
  /\ fst (transcribe_microphone_audio (Demo.answering (Responds response))
            Demo.client (PBytesIO Demo.clip) w)
     = Return (PStr "Hello, world.").
Proof.
  intros w response.
  split; [reflexivity|]. split; [reflexivity|].
  apply (transcribe_returns_transcript (Demo.answering (Responds response))
           Demo.client Demo.clip w response "Hello, world."); reflexivity.
Defined.

(** C2. Every failure of the service call, be it an exception raised by
    the call (transport, authentication) or a response without the path to
    the transcript, is caught: the client shows an error banner with the
    description of the exception and returns [None] after its single call,
    and the page run, in which the SDK has built the client from the
    credential, ends normally with that banner and the warning. *)
Theorem service_failure_handled
    (Deepgram : Constructor) (deepgram : Service) (i : Interaction) (key : PyVal)
    (dg_client : Client) (bs : list Byte.byte) (log : list Request) :
  secrets i !! "DEEPGRAM_API_KEY" = Some key ->
  Deepgram key = inr dg_client ->
  recording i = Some bs ->
  clicked i = true ->
  failed (deepgram log (request_of dg_client bs)) ->
  exists text,
    (forall e, deepgram log (request_of dg_client bs) = Fails e -> text = exn_str e)
    /\ (forall p,
          transcribe_microphone_audio deepgram dg_client (PBytesIO bs) (mkWorld p log)
          = (Return PNone,
             mkWorld (p ++ [sending_notice; error_notice text])
               (log ++ [request_of dg_client bs])))
    /\ render Deepgram deepgram i log
       = (Return tt,
          mkWorld (page_head ++ playback bs
                   ++ [spinner; sending_notice; error_notice text; try_again_warning]
                   ++ page_foot)
            (log ++ [request_of dg_client bs])).
Proof.
  intros Hkey Hbuilt Hrec Hclick Hfailed.
  assert (Hclient : exists text,
             (forall e, deepgram log (request_of dg_client bs) = Fails e -> text = exn_str e)
             /\ client_result (deepgram log (request_of dg_client bs))
                = (Return PNone, [sending_notice; error_notice text])).
  { destruct (deepgram log (request_of dg_client bs)) as [response|e]; simpl in Hfailed.
    - destruct (read_transcript_malformed _ Hfailed) as (e & Hread & _).
      exists (exn_str e). split; [discriminate|].
      simpl. rewrite Hread. reflexivity.
    - exists (exn_str e). split; [intros e' [= <-]; reflexivity|].
      simpl. rewrite Hfailed. reflexivity. }
  destruct Hclient as (text & Htext & Hresult).
  exists text. split; [exact Htext|]. split.
  - intros p. rewrite transcribe_run. cbv zeta. simpl sent.
    rewrite Hresult. reflexivity.
  - rewrite (render_built _ _ _ _ _ _ Hkey Hbuilt).
    rewrite (main_clicked_run _ _ _ _ _ Hrec Hclick). cbv zeta. simpl sent.
    rewrite Hresult. reflexivity.
Qed.

Lemma service_failure_handled_witness :
  failed (Demo.answering (Fails Demo.unauthorized) []
            (request_of Demo.client Demo.clip))
  /\ Demo.sdk Demo.key = inr Demo.client
  /\ exists text,
       render Demo.sdk (Demo.answering (Fails Demo.unauthorized)) Demo.click []
       = (Return tt,
          mkWorld (page_head ++ playback Demo.clip
                   ++ [spinner; sending_notice; error_notice text; try_again_warning]
                   ++ page_foot)
            [request_of Demo.client Demo.clip]).
Proof.
  split; [reflexivity|]. split; [reflexivity|].
  destruct (service_failure_handled Demo.sdk (Demo.answering (Fails Demo.unauthorized))
              Demo.click Demo.key Demo.client Demo.clip []
              eq_refl eq_refl eq_refl eq_refl eq_refl)
    as (text & _ & _ & Hpage).
  exists text. exact Hpage.
Defined.

(** ** Start-up *)

(** C3, as stated, fails twice.  A credential that is present but that the
    SDK rejects (here a number) makes the unguarded construction of the
    client raise: no part of the interface is rendered.  And without a
    secrets file the lookup raises an error that [except KeyError] does not
    catch: the run ends in that exception, with no message of the script
    and no [st.stop()]. *)
Lemma startup_may_not_proceed :
  ~ (forall (Deepgram : Constructor) (deepgram : Service) (i : Interaction)
            (log : list Request) (key : PyVal),
       secrets i !! "DEEPGRAM_API_KEY" = Some key ->
       exists rest, page (snd (render Deepgram deepgram i log)) = page_head ++ rest)
  /\ ~ (forall (Deepgram : Constructor) (deepgram : Service) (i : Interaction)
               (log : list Request),
          secrets i !! "DEEPGRAM_API_KEY" = None ->
          render Deepgram deepgram i log = (Halt, mkWorld [missing_key_notice] log)).
Proof.
  split.
  - intros Hall.
    destruct (Hall Demo.sdk (Demo.answering (Fails Demo.unauthorized))
                Demo.click_with_number_key [] (PInt 12345) eq_refl)
      as (rest & Hpage).
    vm_compute in Hpage. discriminate Hpage.
  - intros Hall.
    specialize (Hall Demo.sdk (Demo.answering (Fails Demo.unauthorized))
                  Demo.click_without_secrets [] eq_refl).
    vm_compute in Hall. discriminate Hall.
Qed.

(** C3, amended.  With a secrets file that lacks the credential the run
    shows the error message and halts with nothing else on the page; with
    the credential in the file and a client built from it by the SDK, the
    run is that of [main] with this client, and the interface is
    rendered. *)
Theorem credential_gate
    (Deepgram : Constructor) (deepgram : Service) (i : Interaction)
    (log : list Request) (store : gmap string PyVal) :
  secrets i = SecretsFile store ->
  match store !! "DEEPGRAM_API_KEY" with
  | None => render Deepgram deepgram i log = (Halt, mkWorld [missing_key_notice] log)
  | Some key =>
      forall dg_client,
        Deepgram key = inr dg_client ->
        render Deepgram deepgram i log = main deepgram dg_client i (mkWorld [] log)
        /\ fst (render Deepgram deepgram i log) <> Halt
        /\ exists rest, page (snd (render Deepgram deepgram i log)) = page_head ++ rest
  end.
Proof.
  intros Hfile. unfold render. rewrite app_run, Hfile.
  destruct (store !! "DEEPGRAM_API_KEY") as [key|]; [|reflexivity].
  intros dg_client ->.
  split; [reflexivity|].
  destruct (recording i) as [bs|] eqn:Hrec; [destruct (clicked i) eqn:Hclick|].
  - rewrite (main_clicked_run _ _ _ _ _ Hrec Hclick). cbv zeta.
    destruct (fst (client_result _)) eqn:Hres.
    + split; [discriminate|]. simpl. eexists. reflexivity.
    + split; [discriminate|]. simpl. eexists. reflexivity.
    + exfalso. revert Hres. unfold client_result.
      destruct (deepgram _ _) as [response|e].
      * pose proof (read_transcript_no_Halt response).
        destruct (read_transcript response); simpl; congruence.
      * destruct (is_Exception e); discriminate.
  - rewrite (main_not_clicked _ _ _ _ _ Hrec Hclick).
    split; [discriminate|]. simpl. eexists. reflexivity.
  - rewrite (main_idle _ _ _ _ Hrec).
    split; [discriminate|]. simpl. eexists. reflexivity.
Qed.

Lemma credential_gate_witness :
  secrets Demo.idle = SecretsFile Demo.store
  /\ Demo.sdk Demo.key = inr Demo.client
  /\ render Demo.sdk (Demo.answering (Fails Demo.unauthorized)) Demo.idle []
     = main (Demo.answering (Fails Demo.unauthorized)) Demo.client Demo.idle
         (mkWorld [] [])
  /\ render Demo.sdk (Demo.answering (Fails Demo.unauthorized))
       (mkInteraction (SecretsFile ∅) None false) []
     = (Halt, mkWorld [missing_key_notice] []).
Proof.
  split; [reflexivity|]. split; [reflexivity|]. split.
  - exact (proj1 (credential_gate Demo.sdk (Demo.answering (Fails Demo.unauthorized))
                    Demo.idle [] Demo.store eq_refl Demo.client eq_refl)).
  - exact (credential_gate Demo.sdk (Demo.answering (Fails Demo.unauthorized))
             (mkInteraction (SecretsFile ∅) None false) [] ∅ eq_refl).
Defined.

(** ** The page after a click *)

(** C4, as stated, fails: [main] tests the value the client returned with
    [if transcript:], so a value Python takes as true that is not a string
    (here the number 42 found at the transcript path) is shown under the
    success banner as well. *)
Lemma number_shown_as_transcript :
  ~ (forall (deepgram : Service) (dg_client : Client) (i : Interaction)
            (bs : list Byte.byte) (w w1 : World) (t : PyVal),
       recording i = Some bs ->
       clicked i = true ->
       transcribe_microphone_audio deepgram dg_client (PBytesIO bs)
         (rendered w (page_head ++ playback bs ++ [spinner])) = (Return t, w1) ->
       exists shown,
         main deepgram dg_client i w = (Return tt, rendered w1 (shown ++ page_foot))
         /\ (shown = [SuccessBanner (PStr "Transcription Complete!");
                      Subheader "Your Transcript:";
                      InfoBanner t]
             <-> exists s, t = PStr s /\ s <> EmptyString)).
Proof.
  intros Hall.
  pose (deepgram := Demo.answering (Responds (Demo.response_with (PInt 42)))).
  pose (w := mkWorld [] []).
  pose (w1 := called (rendered w (page_head ++ playback Demo.clip ++ [spinner; sending_notice]))
                (request_of Demo.client Demo.clip)).
  destruct (Hall deepgram Demo.client Demo.click Demo.clip w w1 (PInt 42)
              eq_refl eq_refl eq_refl)
    as (shown & Hmain & Hiff).
  assert (Hshown : shown = [SuccessBanner (PStr "Transcription Complete!");
                            Subheader "Your Transcript:";
                            InfoBanner (PInt 42)]).
  { rewrite (main_clicked deepgram Demo.client Demo.click Demo.clip w eq_refl eq_refl)
      in Hmain.
    change (transcribe_microphone_audio deepgram Demo.client (PBytesIO Demo.clip)
              (rendered w (page_head ++ playback Demo.clip ++ [spinner])))
      with (Return (PInt 42), w1) in Hmain.
    injection Hmain as Hpage.
    symmetry.
    exact (app_inv_tail page_foot
             [SuccessBanner (PStr "Transcription Complete!");
              Subheader "Your Transcript:";
              InfoBanner (PInt 42)]
             shown Hpage). }
  apply Hiff in Hshown as (s & Hs & _). discriminate Hs.
Qed.

(** C4, amended.  Once the client has returned, the page shows the success
    banner and the value returned, as it is, exactly when Python takes
    that value as true; this is so for every non-empty string.  For
    [None], for the empty string and for every other value taken as false
    it shows the warning to try again. *)
Theorem transcript_shown_iff_truthy
    (deepgram : Service) (dg_client : Client) (i : Interaction) (bs : list Byte.byte)
    (w w1 : World) (t : PyVal) :
  recording i = Some bs ->
  clicked i = true ->
  transcribe_microphone_audio deepgram dg_client (PBytesIO bs)
    (rendered w (page_head ++ playback bs ++ [spinner])) = (Return t, w1) ->
  exists shown,
    main deepgram dg_client i w = (Return tt, rendered w1 (shown ++ page_foot))
    /\ (shown = [SuccessBanner (PStr "Transcription Complete!");
                 Subheader "Your Transcript:";
                 InfoBanner t]
        <-> truthy t = true)
    /\ (shown = [try_again_warning] <-> truthy t = false)
    /\ (forall s, t = PStr s -> (truthy t = true <-> s <> EmptyString))
    /\ (t = PNone \/ t = PStr EmptyString -> shown = [try_again_warning]).
Proof.
  intros Hrec Hclick Hclient.
  exists (result_view t). split.
  - rewrite (main_clicked _ _ _ _ _ Hrec Hclick), Hclient. reflexivity.
  - unfold result_view, transcript_view. repeat split.
    + destruct (truthy t); [reflexivity | discriminate].
    + destruct (truthy t); [reflexivity | discriminate].
    + destruct (truthy t); [discriminate | reflexivity].
    + destruct (truthy t); [discriminate | reflexivity].
    + subst t. destruct s; simpl; [discriminate | intros _; discriminate].
    + subst t. destruct s; simpl; [intros Hne; contradiction | reflexivity].
    + intros [-> | ->]; reflexivity.
Qed.

Lemma transcript_shown_iff_truthy_witness :
  let deepgram := Demo.answering (Responds (Demo.response_with (PStr "Hello, world."))) in
  let w := mkWorld [] [] in
  let w1 := called (rendered w (page_head ++ playback Demo.clip ++ [spinner; sending_notice]))
              (request_of Demo.client Demo.clip) in
  transcribe_microphone_audio deepgram Demo.client (PBytesIO Demo.clip)
    (rendered w (page_head ++ playback Demo.clip ++ [spinner]))
  = (Return (PStr "Hello, world."), w1)
  /\ exists shown,
       main deepgram Demo.client Demo.click w
       = (Return tt, rendered w1 (shown ++ page_foot))
       /\ (shown = [SuccessBanner (PStr "Transcription Complete!");
                    Subheader "Your Transcript:";
                    InfoBanner (PStr "Hello, world.")]
           <-> truthy (PStr "Hello, world.") = true).
Proof.
  intros deepgram w w1.
  split; [reflexivity|].
  destruct (transcript_shown_iff_truthy deepgram Demo.client Demo.click Demo.clip
              w w1 (PStr "Hello, world.") eq_refl eq_refl eq_refl)
    as (shown & Hmain & Hiff & _).
  exists shown. split; [exact Hmain | exact Hiff].
Defined.

(** C5. A page render without a recording shows no button and sends no
    request. *)
Theorem no_audio_no_transcribe
    (Deepgram : Constructor) (deepgram : Service) (i : Interaction) (log : list Request) :
  recording i = None ->
  Forall (fun x => is_button x = false) (page (snd (render Deepgram deepgram i log)))
  /\ sent (snd (render Deepgram deepgram i log)) = log.
Proof.
  intros Hrec. unfold render. rewrite app_run.
  destruct (secrets i) as [message|store]; simpl.
  - split; [constructor | reflexivity].
  - destruct (store !! "DEEPGRAM_API_KEY") as [key|]; simpl.
    + destruct (Deepgram key) as [e|dg_client]; simpl.
      * split; [constructor | reflexivity].
      * rewrite (main_idle _ _ _ _ Hrec). simpl.
        split; [repeat constructor | reflexivity].
    + split; [repeat constructor | reflexivity].
Qed.

Lemma no_audio_no_transcribe_witness :
  recording Demo.idle = None
  /\ Forall (fun x => is_button x = false)
       (page (snd (render Demo.sdk (Demo.answering (Fails Demo.unauthorized)) Demo.idle [])))
  /\ sent (snd (render Demo.sdk (Demo.answering (Fails Demo.unauthorized)) Demo.idle [])) = [].
Proof.
  split; [reflexivity|].
  apply (no_audio_no_transcribe Demo.sdk (Demo.answering (Fails Demo.unauthorized))
           Demo.idle []).
  reflexivity.
Defined.

(** C6. Every request a page render sends carries the bytes of the
    current recording, unchanged, with the MIME type audio/webm, and
    exactly the options smart_format: True, model: nova-2,
    language: en-US; and a click on a recording, with a client built, does
    send such a request, the only one of the render. *)
Theorem request_payload
    (Deepgram : Constructor) (deepgram : Service) (i : Interaction) (log : list Request) :
  (exists new,
     sent (snd (render Deepgram deepgram i log)) = log ++ new
     /\ Forall (fun rq =>
                  exists bs,
                    recording i = Some bs
                    /\ req_source rq
                       = PDict [("buffer", PBytes bs); ("mimetype", PStr "audio/webm")]
                    /\ req_options rq
                       = PDict [("smart_format", PBool true);
                                ("model", PStr "nova-2");
                                ("language", PStr "en-US")])
          new)
  /\ (forall key dg_client bs,
        secrets i !! "DEEPGRAM_API_KEY" = Some key ->
        Deepgram key = inr dg_client ->
        recording i = Some bs ->
        clicked i = true ->
        sent (snd (render Deepgram deepgram i log))
        = log ++ [mkRequest (api_key dg_client)
                    (PDict [("buffer", PBytes bs); ("mimetype", PStr "audio/webm")])
                    (PDict [("smart_format", PBool true);
                            ("model", PStr "nova-2");
                            ("language", PStr "en-US")])]).
Proof.
  split.
  - rewrite render_sent.
    destruct (built_client Deepgram i) as [dg_client|];
      [destruct (recording i) as [bs|]; [destruct (clicked i)|]|].
    + exists [request_of dg_client bs]. split; [reflexivity|].
      constructor; [|constructor]. exists bs. repeat split.
    + exists []. split; [symmetry; apply app_nil_r | constructor].
    + exists []. split; [symmetry; apply app_nil_r | constructor].
    + exists []. split; [symmetry; apply app_nil_r | constructor].
  - intros key dg_client bs Hkey Hbuilt Hrec Hclick.
    rewrite render_sent.
    rewrite (proj2 (built_client_Some Deepgram i dg_client)) by eauto.
    rewrite Hrec, Hclick. reflexivity.
Qed.

Lemma request_payload_witness :
  sent (snd (render Demo.sdk (Demo.answering (Fails Demo.unauthorized)) Demo.click []))
  = [mkRequest Demo.key
       (PDict [("buffer", PBytes Demo.clip); ("mimetype", PStr "audio/webm")])
       (PDict [("smart_format", PBool true);
               ("model", PStr "nova-2");
               ("language", PStr "en-US")])].
Proof.
  exact (proj2 (request_payload Demo.sdk (Demo.answering (Fails Demo.unauthorized))
                  Demo.click [])
           Demo.key Demo.client Demo.clip eq_refl eq_refl eq_refl eq_refl).
Defined.

(** C7. With a client built from the credential, a recording and a click,
    every render sends exactly one request, whatever was sent before; what
    the page then shows is the service's answer to that very call; and
    [n] clicks in a row on the same recording send [n] requests. *)
Theorem each_press_one_call
    (Deepgram : Constructor) (deepgram : Service) (i : Interaction) (key : PyVal)
    (dg_client : Client) (bs : list Byte.byte) :
  secrets i !! "DEEPGRAM_API_KEY" = Some key ->
  Deepgram key = inr dg_client ->
  recording i = Some bs ->
  clicked i = true ->
  (forall log,
     sent (snd (render Deepgram deepgram i log)) = log ++ [request_of dg_client bs])
  /\ (forall log,
        page (snd (render Deepgram deepgram i log))
        = page (snd (render Deepgram
                       (fun _ _ => deepgram log (request_of dg_client bs)) i [])))
  /\ (forall n log,
        presses Deepgram deepgram i n log = log ++ repeat (request_of dg_client bs) n).
Proof.
  intros Hkey Hbuilt Hrec Hclick.
  assert (Hone : forall log,
             sent (snd (render Deepgram deepgram i log))
             = log ++ [request_of dg_client bs]).
  { intros log. rewrite (render_built _ _ _ _ _ _ Hkey Hbuilt).
    rewrite (main_clicked_run _ _ _ _ _ Hrec Hclick). cbv zeta.
    destruct (fst (client_result _)); reflexivity. }
  split; [exact Hone|]. split.
  - intros log. rewrite !(render_built _ _ _ _ _ _ Hkey Hbuilt).
    rewrite !(main_clicked_run _ _ _ _ _ Hrec Hclick). cbv zeta. simpl sent.
    destruct (fst (client_result _)); reflexivity.
  - induction n as [|n IH]; intros log; simpl.
    + symmetry. apply app_nil_r.
    + rewrite Hone, IH, <- app_assoc. reflexivity.
Qed.

Lemma each_press_one_call_witness :
  secrets Demo.click !! "DEEPGRAM_API_KEY" = Some Demo.key
  /\ Demo.sdk Demo.key = inr Demo.client
  /\ forall n log,
       presses Demo.sdk Demo.counting Demo.click n log
       = log ++ repeat (request_of Demo.client Demo.clip) n.
Proof.
  split; [reflexivity|]. split; [reflexivity|].
  apply (each_press_one_call Demo.sdk Demo.counting Demo.click Demo.key Demo.client
           Demo.clip);
    reflexivity.
Defined.

(** The service is asked anew at every click: with a service that changes
    its answer, two clicks on the same recording show two transcripts. *)
Example second_click_shows_second_answer :
  let first := render Demo.sdk Demo.counting Demo.click [] in
  let second := render Demo.sdk Demo.counting Demo.click (sent (snd first)) in
  In (InfoBanner (PStr "first")) (page (snd first))
  /\ In (InfoBanner (PStr "again")) (page (snd second))
  /\ ~ In (InfoBanner (PStr "first")) (page (snd second))
  /\ length (sent (snd second)) = 2%nat.
Proof.
  vm_compute. intuition congruence.
Qed.

(** C8. A click on an empty recording, with a client built from the
    credential: the client does not check the bytes and sends them; when
    the service rejects the call, by raising or by answering without a
    transcript, the page shows the error banner and the warning and the
    run ends normally; a run never ends in an exception when the service
    answers. *)
Theorem empty_audio_handled
    (Deepgram : Constructor) (deepgram : Service) (i : Interaction) (key : PyVal)
    (dg_client : Client) (log : list Request) :
  secrets i !! "DEEPGRAM_API_KEY" = Some key ->
  Deepgram key = inr dg_client ->
  recording i = Some [] ->
  clicked i = true ->
  sent (snd (render Deepgram deepgram i log)) = log ++ [request_of dg_client []]
  /\ (forall e,
        deepgram log (request_of dg_client []) = Fails e ->
        is_Exception e = true ->
        render Deepgram deepgram i log
        = (Return tt,
           mkWorld (page_head ++ playback []
                    ++ [spinner; sending_notice; error_notice (exn_str e); try_again_warning]
                    ++ page_foot)
             (log ++ [request_of dg_client []])))
  /\ (forall response,
        deepgram log (request_of dg_client []) = Responds response ->
        transcript_at_path response = None ->
        exists text,
          render Deepgram deepgram i log
          = (Return tt,
             mkWorld (page_head ++ playback []
                      ++ [spinner; sending_notice; error_notice text; try_again_warning]
                      ++ page_foot)
               (log ++ [request_of dg_client []])))
  /\ (forall response,
        deepgram log (request_of dg_client []) = Responds response ->
        fst (render Deepgram deepgram i log) = Return tt).
Proof.
  intros Hkey Hbuilt Hrec Hclick.
  rewrite (render_built _ _ _ _ _ _ Hkey Hbuilt).
  rewrite (main_clicked_run _ _ _ _ _ Hrec Hclick). cbv zeta. simpl sent.
  split; [|split; [|split]].
  - destruct (fst (client_result _)); reflexivity.
  - intros e -> He. simpl. rewrite He. reflexivity.
  - intros response -> Hpath.
    destruct (read_transcript_malformed _ Hpath) as (e & Hread & _).
    exists (exn_str e). simpl. rewrite Hread. reflexivity.
  - intros response ->. simpl.
    pose proof (read_transcript_no_Halt response) as Hno.
    destruct (read_transcript response); simpl; [reflexivity|reflexivity|contradiction].
Qed.

Lemma empty_audio_handled_witness :
  recording Demo.click_on_empty = Some []
  /\ Demo.sdk Demo.key = inr Demo.client
  /\ render Demo.sdk
       (Demo.answering (Fails (mkExn (LibraryError "DeepgramApiError") "400 Bad Request")))
       Demo.click_on_empty []
     = (Return tt,
        mkWorld (page_head ++ playback []
                 ++ [spinner; sending_notice; error_notice "400 Bad Request"; try_again_warning]
                 ++ page_foot)
          [request_of Demo.client []])
  /\ exists text,
       render Demo.sdk (Demo.answering (Responds PNone)) Demo.click_on_empty []
       = (Return tt,
          mkWorld (page_head ++ playback []
                   ++ [spinner; sending_notice; error_notice text; try_again_warning]
                   ++ page_foot)
            [request_of Demo.client []]).
Proof.
  split; [reflexivity|]. split; [reflexivity|]. split.
  - destruct (empty_audio_handled Demo.sdk
                (Demo.answering
                   (Fails (mkExn (LibraryError "DeepgramApiError") "400 Bad Request")))
                Demo.click_on_empty Demo.key Demo.client []
                eq_refl eq_refl eq_refl eq_refl)
      as (_ & Hrejected & _).
    exact (Hrejected _ eq_refl eq_refl).
  - destruct (empty_audio_handled Demo.sdk (Demo.answering (Responds PNone))
                Demo.click_on_empty Demo.key Demo.client []
                eq_refl eq_refl eq_refl eq_refl)
      as (_ & _ & Hnone & _).
    exact (Hnone PNone eq_refl eq_refl).
Defined.

(** ** The client at its interface *)

(** The value at the transcript path is returned without a check of its
    type: a response holding a number there makes the client return the
    number, against the docstring (the text as a string, or [None]). *)
Example transcribe_returns_number :
  fst (transcribe_microphone_audio
         (Demo.answering (Responds (Demo.response_with (PInt 42))))
         Demo.client (PBytesIO Demo.clip) (mkWorld [] []))
  = Return (PInt 42).
Proof. reflexivity. Qed.

(** C9, as stated, fails: the handler is [except Exception], not a
    catch-all.  When the awaited service call is cancelled, the
    [CancelledError], which does not derive from [Exception], passes the
    handler and reaches the caller: the client returns nothing. *)
Lemma cancellation_passes_the_handler :
  ~ (forall (deepgram : Service) (dg_client : Client) (audio : PyVal) (w : World),
       exists v,
         fst (transcribe_microphone_audio deepgram dg_client audio w) = Return v
         /\ is_str_or_None v = true).
Proof.
  intros Hall.
  destruct (Hall (Demo.answering (Fails (mkExn CancelledError EmptyString)))
              Demo.client (PBytesIO Demo.clip) (mkWorld [] []))
    as (v & Hret & _).
  vm_compute in Hret. discriminate Hret.
Qed.

(** C9, amended.  For every argument the client lets no exception derived
    from [Exception] reach its caller, its whole body, the reading of the
    response included, being inside the [except Exception] handler: it
    returns [None] when the argument has no [getvalue], when the service
    call raises such an exception and when the response lacks the path to
    the transcript, and it returns the transcript when the response holds
    a string there.  An exception of the service call that does not derive
    from [Exception] is not caught: the client raises it to its caller. *)
Theorem transcribe_outcomes
    (deepgram : Service) (dg_client : Client) (audio : PyVal) (w : World) :
  ((forall bs, audio <> PBytesIO bs) ->
   fst (transcribe_microphone_audio deepgram dg_client audio w) = Return PNone)
  /\ (forall bs,
        audio = PBytesIO bs ->
        match deepgram (sent w) (request_of dg_client bs) with
        | Fails e =>
            fst (transcribe_microphone_audio deepgram dg_client audio w)
            = (if is_Exception e then Return PNone else Raise e)
        | Responds response =>
            match transcript_at_path response with
            | None =>
                fst (transcribe_microphone_audio deepgram dg_client audio w) = Return PNone
            | Some (PStr s) =>
                fst (transcribe_microphone_audio deepgram dg_client audio w)
                = Return (PStr s)
            | Some _ =>
                exists v,
                  fst (transcribe_microphone_audio deepgram dg_client audio w) = Return v
            end
        end).
Proof.
  split.
  - intros Hother.
    destruct (transcribe_run_other deepgram dg_client audio w Hother) as (text & ->).
    reflexivity.
  - intros bs ->. rewrite transcribe_run. cbv zeta. simpl fst.
    destruct (deepgram (sent w) (request_of dg_client bs)) as [response|e];
      unfold client_result.
    + destruct (transcript_at_path response) as [t|] eqn:Hpath.
      * apply read_transcript_path in Hpath. rewrite Hpath.
        destruct t; simpl; eauto.
      * destruct (read_transcript_malformed _ Hpath) as (e & -> & _). reflexivity.
    + destruct (is_Exception e); reflexivity.
Qed.

Lemma transcribe_outcomes_witness :
  fst (transcribe_microphone_audio (Demo.answering (Fails (mkExn CancelledError EmptyString)))
         Demo.client (PBytesIO Demo.clip) (mkWorld [] []))
  = Raise (mkExn CancelledError EmptyString)
  /\ fst (transcribe_microphone_audio (Demo.answering (Fails Demo.unauthorized))
            Demo.client PNone (mkWorld [] []))
     = Return PNone.
Proof.
  split.
  - exact (proj2 (transcribe_outcomes
                    (Demo.answering (Fails (mkExn CancelledError EmptyString)))
                    Demo.client (PBytesIO Demo.clip) (mkWorld [] []))
             Demo.clip eq_refl).
  - apply (proj1 (transcribe_outcomes (Demo.answering (Fails Demo.unauthorized))
                    Demo.client PNone (mkWorld [] []))).
    discriminate.
Defined.

(** ** Banners of a failure *)

(** C10. After a click, with a client built from the credential: when the
    service call raises an exception the page shows, for that one failure,
    the error banner with the text of the exception and then the warning
    to try again; when the service answers with an empty transcript, the
    warning is the only failure banner. *)
Theorem failure_banners_shown
    (Deepgram : Constructor) (deepgram : Service) (i : Interaction) (key : PyVal)
    (dg_client : Client) (bs : list Byte.byte) (log : list Request) :
  secrets i !! "DEEPGRAM_API_KEY" = Some key ->
  Deepgram key = inr dg_client ->
  recording i = Some bs ->
  clicked i = true ->
  (forall e,
     deepgram log (request_of dg_client bs) = Fails e ->
     is_Exception e = true ->
     page (snd (render Deepgram deepgram i log))
     = page_head ++ playback bs
       ++ [spinner; sending_notice;
           ErrorBanner (PStr ("Error during transcription: " +:+ exn_str e));
           try_again_warning]
       ++ page_foot
     /\ failure_banners (page (snd (render Deepgram deepgram i log)))
        = [ErrorBanner (PStr ("Error during transcription: " +:+ exn_str e));
           try_again_warning])
  /\ (forall response,
        deepgram log (request_of dg_client bs) = Responds response ->
        transcript_at_path response = Some (PStr EmptyString) ->
        page (snd (render Deepgram deepgram i log))
        = page_head ++ playback bs ++ [spinner; sending_notice; try_again_warning]
          ++ page_foot
        /\ failure_banners (page (snd (render Deepgram deepgram i log)))
           = [try_again_warning]).
Proof.
  intros Hkey Hbuilt Hrec Hclick.
  rewrite (render_built _ _ _ _ _ _ Hkey Hbuilt).
  rewrite (main_clicked_run _ _ _ _ _ Hrec Hclick). cbv zeta. simpl sent.
  split.
  - intros e -> He. simpl. rewrite He. simpl. split; reflexivity.
  - intros response -> Hpath. apply read_transcript_path in Hpath.
    simpl. rewrite Hpath. simpl. split; reflexivity.
Qed.

Lemma failure_banners_shown_witness :
  clicked Demo.click = true
  /\ Demo.sdk Demo.key = inr Demo.client
  /\ failure_banners
       (page (snd (render Demo.sdk (Demo.answering (Fails Demo.unauthorized)) Demo.click [])))
     = [ErrorBanner (PStr "Error during transcription: 401 Unauthorized");
        try_again_warning]
  /\ failure_banners
       (page (snd (render Demo.sdk
                     (Demo.answering (Responds (Demo.response_with (PStr EmptyString))))
                     Demo.click [])))
     = [try_again_warning].
Proof.
  split; [reflexivity|]. split; [reflexivity|]. split.
  - destruct (failure_banners_shown Demo.sdk (Demo.answering (Fails Demo.unauthorized))
                Demo.click Demo.key Demo.client Demo.clip []
                eq_refl eq_refl eq_refl eq_refl)
      as (Hraised & _).
    exact (proj2 (Hraised Demo.unauthorized eq_refl eq_refl)).
  - destruct (failure_banners_shown Demo.sdk
                (Demo.answering (Responds (Demo.response_with (PStr EmptyString))))
                Demo.click Demo.key Demo.client Demo.clip []
                eq_refl eq_refl eq_refl eq_refl)
      as (_ & Hempty).
    exact (proj2 (Hempty _ eq_refl eq_refl)).
Defined.

(** ** Further properties of the client *)

(** X1. An argument without a [getvalue] method (such as [None]) never
    reaches the service: the [AttributeError] of the first statement is
    caught, its text is the only thing added to the page, and the client
    returns [None]. *)
Theorem transcribe_without_getvalue
    (deepgram : Service) (dg_client : Client) (audio : PyVal) (w : World) :
  (forall bs, audio <> PBytesIO bs) ->
  transcribe_microphone_audio deepgram dg_client audio w
  = (Return PNone,
     mkWorld
       (page w
        ++ [ErrorBanner
              (PStr ("Error during transcription: '" +:+ type_name audio
                     +:+ "' object has no attribute 'getvalue'"))])
       (sent w)).
Proof.
  intros Hother.
  destruct audio; try reflexivity.
  exfalso. exact (Hother content eq_refl).
Qed.

Lemma transcribe_without_getvalue_witness :
  transcribe_microphone_audio (Demo.answering (Fails Demo.unauthorized))
    Demo.client PNone (mkWorld [] [])
  = (Return PNone,
     mkWorld
       [ErrorBanner
          (PStr "Error during transcription: 'NoneType' object has no attribute 'getvalue'")]
       []).
Proof.
  apply (transcribe_without_getvalue (Demo.answering (Fails Demo.unauthorized))
           Demo.client PNone (mkWorld [] [])).
  discriminate.
Defined.

(** X2. Only the first alternative of the first channel is read: when the
    response has a transcript there, the client returns it whatever the
    further channels and alternatives hold. *)
Theorem first_alternative_of_first_channel
    (deepgram : Service) (dg_client : Client) (bs : list Byte.byte) (w : World)
    (response results channel alternative t : PyVal)
    (channels alternatives : list PyVal) :
  deepgram (sent w) (request_of dg_client bs) = Responds response ->
  member "results" response = Some results ->
  member "channels" results = Some (PList (channel :: channels)) ->
  member "alternatives" channel = Some (PList (alternative :: alternatives)) ->
  member "transcript" alternative = Some t ->
  fst (transcribe_microphone_audio deepgram dg_client (PBytesIO bs) w) = Return t.
Proof.
  intros Hanswer Hresults Hchannels Halternatives Htranscript.
  assert (Hpath : transcript_at_path response = Some t).
  { unfold transcript_at_path. rewrite Hresults. simpl.
    rewrite Hchannels. simpl. rewrite Halternatives. simpl. exact Htranscript. }
  apply read_transcript_path in Hpath.
  rewrite transcribe_run. cbv zeta. rewrite Hanswer.
  unfold client_result. rewrite Hpath. reflexivity.
Qed.

Lemma first_alternative_of_first_channel_witness :
  let second := PDict [("transcript", PStr "hollow word")] in
  let first := PDict [("transcript", PStr "Hello, world.")] in
  let channel := PDict [("alternatives", PList [first; second])] in
  let other := PDict [("alternatives", PList [second])] in
  let results := PDict [("channels", PList [channel; other])] in
  let response := PDict [("results", results)] in
  fst (transcribe_microphone_audio (Demo.answering (Responds response))
         Demo.client (PBytesIO Demo.clip) (mkWorld [] []))
  = Return (PStr "Hello, world.").
Proof.
  intros second first channel other results response.
  apply (first_alternative_of_first_channel (Demo.answering (Responds response))
           Demo.client Demo.clip (mkWorld [] [])
           response results channel first (PStr "Hello, world.") [other] [second]);
    reflexivity.
Defined.

(** X3. What the user reads for two malformed responses: an object
    without the key results is reported as the quoted key, and an empty
    list of channels as Python's message for an index out of range; in
    both cases after the one call, and the client returns [None]. *)
Theorem malformed_response_text
    (deepgram : Service) (dg_client : Client) (bs : list Byte.byte) (w : World)
    (response : PyVal) :
  deepgram (sent w) (request_of dg_client bs) = Responds response ->
  ((exists entries, response = PDict entries /\ dict_get entries "results" = None) ->
   transcribe_microphone_audio deepgram dg_client (PBytesIO bs) w
   = (Return PNone,
      mkWorld (page w ++ [sending_notice; error_notice "'results'"])
        (sent w ++ [request_of dg_client bs])))
  /\ ((exists results,
         member "results" response = Some results
         /\ member "channels" results = Some (PList [])) ->
      transcribe_microphone_audio deepgram dg_client (PBytesIO bs) w
      = (Return PNone,
         mkWorld (page w ++ [sending_notice; error_notice "list index out of range"])
           (sent w ++ [request_of dg_client bs]))).
Proof.
  intros Hanswer. split.
  - intros (entries & -> & Hmissing).
    rewrite transcribe_run. cbv zeta. rewrite Hanswer.
    unfold client_result, read_transcript, mbind, Result_bind. simpl.
    rewrite Hmissing. reflexivity.
  - intros (results & Hresults & Hchannels).
    apply subscript_str_key in Hresults, Hchannels.
    rewrite transcribe_run. cbv zeta. rewrite Hanswer.
    unfold client_result, read_transcript, mbind, Result_bind.
    rewrite Hresults, Hchannels. reflexivity.
Qed.

Lemma malformed_response_text_witness :
  transcribe_microphone_audio
    (Demo.answering (Responds (PDict [("err_code", PStr "Bad Request")])))
    Demo.client (PBytesIO Demo.clip) (mkWorld [] [])
  = (Return PNone,
     mkWorld [sending_notice; error_notice "'results'"]
       [request_of Demo.client Demo.clip]).
Proof.
  apply (malformed_response_text
           (Demo.answering (Responds (PDict [("err_code", PStr "Bad Request")])))
           Demo.client Demo.clip (mkWorld [] [])
           (PDict [("err_code", PStr "Bad Request")]) eq_refl).
  eexists. split; reflexivity.
Defined.

(** ** Further properties of the page *)

(** X4. A page render calls the service exactly when the secrets file
    holds the credential, the SDK builds a client from it, a recording is
    held and the button was clicked; in every other render the calls made
    so far stay as they were, and no render adds more than one. *)
Theorem request_iff_click
    (Deepgram : Constructor) (deepgram : Service) (i : Interaction) (log : list Request) :
  (sent (snd (render Deepgram deepgram i log)) <> log
   <-> exists key dg_client bs,
         secrets i !! "DEEPGRAM_API_KEY" = Some key
         /\ Deepgram key = inr dg_client
         /\ recording i = Some bs
         /\ clicked i = true)
  /\ (sent (snd (render Deepgram deepgram i log)) = log
      \/ exists rq, sent (snd (render Deepgram deepgram i log)) = log ++ [rq]).
Proof.
  rewrite render_sent.
  assert (Hgrow : forall rq : Request, log ++ [rq] <> log).
  { intros rq Heq. apply (f_equal (@length Request)) in Heq.
    rewrite length_app in Heq. simpl in Heq. lia. }
  destruct (built_client Deepgram i) as [dg_client|] eqn:Hclient.
  - apply built_client_Some in Hclient as (key & Hkey & Hbuilt).
    destruct (recording i) as [bs|]; [destruct (clicked i)|].
    + split; [|right; eexists; reflexivity].
      split; [intros _; exists key, dg_client, bs; auto | intros _; apply Hgrow].
    + split; [|left; reflexivity].
      split; [intros Hne; exfalso; apply Hne; reflexivity|].
      intros (? & ? & ? & _ & _ & _ & Hclick). discriminate Hclick.
    + split; [|left; reflexivity].
      split; [intros Hne; exfalso; apply Hne; reflexivity|].
      intros (? & ? & ? & _ & _ & Hrec & _). discriminate Hrec.
  - split; [|left; reflexivity].
    split; [intros Hne; exfalso; apply Hne; reflexivity|].
    intros (key & dg_client & bs & Hkey & Hbuilt & _).
    assert (Hsome : built_client Deepgram i = Some dg_client)
      by (apply built_client_Some; eauto).
    congruence.
Qed.

(** X5. How a page render ends.  Without a secrets file it ends in the
    error for the missing file, which [except KeyError] does not catch;
    with a file that lacks the credential it is stopped by [st.stop()];
    with a credential the SDK rejects it ends in the exception of the
    constructor; and with a client built it ends normally, unless after a
    click the service call raises an exception that does not derive from
    [Exception], which then ends the run. *)
Theorem render_outcome
    (Deepgram : Constructor) (deepgram : Service) (i : Interaction) (log : list Request) :
  fst (render Deepgram deepgram i log)
  = match secrets i with
    | NoSecretsFile message => Raise (mkExn FileNotFoundError message)
    | SecretsFile store =>
        match store !! "DEEPGRAM_API_KEY" with
        | None => Halt
        | Some key =>
            match Deepgram key with
            | inl e => Raise e
            | inr dg_client =>
                match recording i with
                | Some bs =>
                    if clicked i then
                      match deepgram log (request_of dg_client bs) with
                      | Fails e => if is_Exception e then Return tt else Raise e
                      | Responds _ => Return tt
                      end
                    else Return tt
                | None => Return tt
                end
            end
        end
    end.
Proof.
  unfold render. rewrite app_run.
  destruct (secrets i) as [message|store]; [reflexivity|].
  destruct (store !! "DEEPGRAM_API_KEY") as [key|]; [|reflexivity].
  destruct (Deepgram key) as [e|dg_client]; [reflexivity|].
  destruct (recording i) as [bs|] eqn:Hrec; [destruct (clicked i) eqn:Hclick|].
  - rewrite (main_clicked_run _ _ _ _ _ Hrec Hclick). cbv zeta. simpl sent.
    destruct (deepgram log (request_of dg_client bs)) as [response|e];
      unfold client_result.
    + pose proof (read_transcript_no_Halt response) as Hno.
      destruct (read_transcript response); simpl; [reflexivity|reflexivity|contradiction].
    + destruct (is_Exception e); reflexivity.
  - rewrite (main_not_clicked _ _ _ _ _ Hrec Hclick). reflexivity.
  - rewrite (main_idle _ _ _ _ Hrec). reflexivity.
Qed.

(** X6. When the service answers a click, made with a client built from
    the credential, with a response that has a value at the transcript
    path, no error banner is shown: the value is displayed under the
    success banner if Python takes it as true, and the warning alone is
    shown otherwise (an empty string, [None], zero, an empty list). *)
Theorem answered_click_page
    (Deepgram : Constructor) (deepgram : Service) (i : Interaction) (key : PyVal)
    (dg_client : Client) (bs : list Byte.byte) (log : list Request)
    (response t : PyVal) :
  secrets i !! "DEEPGRAM_API_KEY" = Some key ->
  Deepgram key = inr dg_client ->
  recording i = Some bs ->
  clicked i = true ->
  deepgram log (request_of dg_client bs) = Responds response ->
  transcript_at_path response = Some t ->
  render Deepgram deepgram i log
  = (Return tt,
     mkWorld
       (page_head ++ playback bs ++ [spinner; sending_notice]
        ++ (if truthy t
            then [SuccessBanner (PStr "Transcription Complete!");
                  Subheader "Your Transcript:";
                  InfoBanner t]
            else [try_again_warning])
        ++ page_foot)
       (log ++ [request_of dg_client bs]))
  /\ failure_banners (page (snd (render Deepgram deepgram i log)))
     = (if truthy t then [] else [try_again_warning]).
Proof.
  intros Hkey Hbuilt Hrec Hclick Hanswer Hpath.
  apply read_transcript_path in Hpath.
  rewrite (render_built _ _ _ _ _ _ Hkey Hbuilt).
  rewrite (main_clicked_run _ _ _ _ _ Hrec Hclick). cbv zeta. simpl sent.
  rewrite Hanswer. unfold client_result. rewrite Hpath.
  unfold result_view, transcript_view. simpl.
  destruct (truthy t); split; reflexivity.
Qed.

Lemma answered_click_page_witness :
  transcript_at_path (Demo.response_with PNone) = Some PNone
  /\ Demo.sdk Demo.key = inr Demo.client
  /\ failure_banners
       (page (snd (render Demo.sdk (Demo.answering (Responds (Demo.response_with PNone)))
                     Demo.click [])))
     = [try_again_warning].
Proof.
  split; [reflexivity|]. split; [reflexivity|].
  exact (proj2 (answered_click_page Demo.sdk
                  (Demo.answering (Responds (Demo.response_with PNone)))
                  Demo.click Demo.key Demo.client Demo.clip []
                  (Demo.response_with PNone) PNone
                  eq_refl eq_refl eq_refl eq_refl eq_refl eq_refl)).
Defined.

(** X7. Over a whole session the service is called once for every run in
    which the SDK builds a client from the credential of the secrets file,
    a recording is held and the button was clicked, and never otherwise;
    earlier calls are kept. *)
Theorem session_calls
    (Deepgram : Constructor) (deepgram : Service) (runs : list Interaction)
    (log : list Request) :
  length (session Deepgram deepgram runs log)
  = (length log + length (List.filter (triggers Deepgram) runs))%nat
  /\ exists new, session Deepgram deepgram runs log = log ++ new.
Proof.
  revert log. induction runs as [|i runs IH]; intros log; simpl.
  - split; [lia|]. exists []. symmetry. apply app_nil_r.
  - destruct (IH (sent (snd (render Deepgram deepgram i log)))) as (Hlen & new & Hnew).
    rewrite Hlen, Hnew. rewrite render_sent. unfold triggers.
    destruct (built_client Deepgram i) as [dg_client|];
      [destruct (recording i) as [bs|]; [destruct (clicked i)|]|]; simpl;
      rewrite ?length_app; simpl;
      (split; [lia|]);
      rewrite <- ?app_assoc; eexists; reflexivity.
Qed.

(** A run whose credential the SDK rejects is not counted: the session of
    one such click and one click with an accepted credential makes one
    call. *)
Example rejected_credential_makes_no_call :
  session Demo.sdk (Demo.answering (Fails Demo.unauthorized))
    [Demo.click_with_number_key; Demo.click_without_secrets; Demo.click] []
  = [request_of Demo.client Demo.clip].
Proof. reflexivity. Qed.
